(** * tryCatch.ts: the Result wrapper around promises and thunks

    A shallow embedding of [src/tryCatch.ts].  The file has three parts:

    - the JavaScript values the wrapper handles, with promises described by
      the way they settle;
    - the body of an [async] function as a small monad with [await], [throw]
      and [try]/[catch], and the runtime that turns such a body into the
      promise the call returns;
    - [tryCatch] and [tryCatchFn] written in that monad, statement for
      statement, and the properties of the promises they return. *)

From Stdlib Require Import String List ZArith Arith Bool Lia.
Import ListNotations.
Local Open Scope string_scope.

(** ** Values *)

(** The values that can be resolved, rejected, thrown or stored in a slot.
    Numbers carry an integer because the wrapper never computes with them.
    A promise is described by its fate: the turn of the job queue at which it
    settles together with the value or the reason, or [Forever] when it never
    settles.  Turn [0] is "already settled when the wrapper is called".
    No value is callable, so promises are the only thenables. *)
#[warnings="-register-all"]
Inductive value : Type :=
| VUndefined
| VNull
| VBoolean (b : bool)
| VNumber (n : Z)
| VString (s : string)
| VError (name message : string)
| VObject (props : list (string * value))
| VPromise (p : promise)
with promise : Type :=
| Fulfilled (turn : nat) (v : value)
| Rejected (turn : nat) (reason : value)
| Forever.

(** How a synchronous computation or an [await] ends: with a value, or by
    raising one. *)
Inductive completion : Type :=
| Normal (v : value)
| Abrupt (thrown : value).

Definition payload (c : completion) : value :=
  match c with
  | Normal v => v
  | Abrupt e => e
  end.

(** [fn: () => T | Promise<T>]: calling it returns a value (possibly a
    promise) or throws. *)
Definition thunk : Type := unit -> completion.

(** Property read [o.key]; a missing property reads as [undefined]. *)
Definition get (o : value) (key : string) : value :=
  match o with
  | VObject props =>
      match find (fun kv => String.eqb (fst kv) key) props with
      | Some kv => snd kv
      | None => VUndefined
      end
  | _ => VUndefined
  end.

(** [v === null] *)
Definition is_null (v : value) : bool :=
  match v with
  | VNull => true
  | _ => false
  end.

(** [value instanceof Error] *)
Definition is_error_object (v : value) : bool :=
  match v with
  | VError _ _ => true
  | _ => false
  end.

(** [v instanceof Promise] *)
Definition is_promise (v : value) : bool :=
  match v with
  | VPromise _ => true
  | _ => false
  end.

(** [v] is a primitive: [Object(v) !== v].  Reading a property of a
    primitive plays no part in [await], which resolves with it directly. *)
Definition is_primitive (v : value) : bool :=
  match v with
  | VUndefined | VNull | VBoolean _ | VNumber _ | VString _ => true
  | VError _ _ | VObject _ | VPromise _ => false
  end.

(** ** The Result type *)

(** [type Success<T> = { data: T; error: null }] and
    [type Failure<E> = { data: null; error: E }]. *)
Definition Success (data : value) : value :=
  VObject [("data", data); ("error", VNull)].

Definition Failure (error : value) : value :=
  VObject [("data", VNull); ("error", error)].

(** [type Result<T, E> = Success<T> | Failure<E>] *)
Inductive Result : value -> Prop :=
| Result_Success (data : value) : Result (Success data)
| Result_Failure (error : value) : Result (Failure error).

(** A slot is populated when it does not hold the absent marker [null]. *)
Definition populated (r : value) (slot : string) : bool :=
  negb (is_null (get r slot)).

Definition exactly_one_populated (r : value) : bool :=
  xorb (populated r "data") (populated r "error").

Definition both_populated (r : value) : bool :=
  populated r "data" && populated r "error".

Definition both_absent (r : value) : bool :=
  negb (populated r "data") && negb (populated r "error").

(** ** Bodies of async functions *)

(** The body of an [async] function runs until it returns, throws, or
    reaches an [await]; at an [await] it hands its operand to the runtime and
    is resumed with the completion of that operand. *)
Inductive async (A : Type) : Type :=
| Ret (a : A)
| Throw (e : value)
| Await (operand : value) (resume : completion -> async A).

Arguments Ret {A} a.
Arguments Throw {A} e.
Arguments Await {A} operand resume.

Fixpoint bind {A B : Type} (m : async A) (f : A -> async B) : async B :=
  match m with
  | Ret a => f a
  | Throw e => Throw e
  | Await operand resume => Await operand (fun c => bind (resume c) f)
  end.

(** [try { body } catch (error) { handler }] *)
Fixpoint try_catch {A : Type} (body : async A) (handler : value -> async A)
  : async A :=
  match body with
  | Ret a => Ret a
  | Throw e => handler e
  | Await operand resume =>
      Await operand (fun c => try_catch (resume c) handler)
  end.

(** [await operand]: a rejection is rethrown where the [await] stands. *)
Definition await (operand : value) : async value :=
  Await operand (fun c =>
    match c with
    | Normal v => Ret v
    | Abrupt e => Throw e
    end).

(** [fn()] *)
Definition invoke (fn : thunk) : async value :=
  match fn tt with
  | Normal v => Ret v
  | Abrupt e => Throw e
  end.

Declare Scope async_scope.
Delimit Scope async_scope with async.
Notation "'const' x ':=' m ';;' k" := (bind m (fun x => k))
  (at level 61, x name, m at next level, right associativity) : async_scope.
Notation "'try' body 'catch' '(' e ')' handler" :=
  (try_catch body (fun e => handler))
  (at level 62, e name, body at level 61, handler at level 61) : async_scope.
Local Open Scope async_scope.

(** ** The runtime *)

(** What the runtime does with the operand of an [await] reached at turn
    [now]: the body is resumed in a later job, no earlier than the turn at
    which the operand settles, and never if the operand never settles.  An
    operand that is not a promise completes with itself. *)
Definition awaited (now : nat) (operand : value) : option (nat * completion) :=
  match operand with
  | VPromise (Fulfilled turn v) => Some (S (Nat.max now turn), Normal v)
  | VPromise (Rejected turn reason) => Some (S (Nat.max now turn), Abrupt reason)
  | VPromise Forever => None
  | _ => Some (S now, Normal operand)
  end.

(** [return r] in an async function resolves the promise of the call: a
    promise is adopted, anything else fulfils it. *)
Definition resolve (now : nat) (r : value) : promise :=
  match r with
  | VPromise (Fulfilled turn v) => Fulfilled (Nat.max now turn) v
  | VPromise (Rejected turn reason) => Rejected (Nat.max now turn) reason
  | VPromise Forever => Forever
  | _ => Fulfilled now r
  end.

(** A call of an async function: the operands it awaited, in order, and the
    promise it returned. *)
Record call : Type := mkCall {
  awaits : list value;
  returned : promise
}.

Fixpoint run_async (body : async value) (now : nat) : call :=
  match body with
  | Ret r => mkCall [] (resolve now r)
  | Throw e => mkCall [] (Rejected now e)
  | Await operand resume =>
      match awaited now operand with
      | Some (turn, c) =>
          let rest := run_async (resume c) turn in
          mkCall (operand :: awaits rest) (returned rest)
      | None => mkCall [operand] Forever
      end
  end.

Definition settled (p : promise) : bool :=
  match p with
  | Forever => false
  | _ => true
  end.

Definition settle_turn (p : promise) : option nat :=
  match p with
  | Fulfilled turn _ => Some turn
  | Rejected turn _ => Some turn
  | Forever => None
  end.

(** ** The wrapper *)

(** [[
export async function tryCatch<T, E = Error>(promise: Promise<T>) {
  try {
    const data = await promise;
    return { data, error: null };
  } catch (error) {
    return { data: null, error: error as E };
  }
}
]] *)
Definition tryCatch (promise : value) : async value :=
  try
    (const data := await promise ;;
     Ret (VObject [("data", data); ("error", VNull)]))
  catch (error)
    (Ret (VObject [("data", VNull); ("error", error)])).

(** [[
export async function tryCatchFn<T, E = Error>(fn: () => T | Promise<T>) {
  try {
    const data = await fn();
    return { data, error: null };
  } catch (error) {
    return { data: null, error: error as E };
  }
}
]] *)
Definition tryCatchFn (fn : thunk) : async value :=
  try
    (const data := (const r := invoke fn ;; await r) ;;
     Ret (VObject [("data", data); ("error", VNull)]))
  catch (error)
    (Ret (VObject [("data", VNull); ("error", error)])).

(** ** Concrete runs *)

Example scenario_A :
  run_async (tryCatch (VPromise (Fulfilled 0 (VString "ok")))) 0
  = mkCall [VPromise (Fulfilled 0 (VString "ok"))]
           (Fulfilled 1 (VObject [("data", VString "ok"); ("error", VNull)])).
Proof. reflexivity. Qed.

Example scenario_B :
  run_async (tryCatch (VPromise (Rejected 2 (VError "Error" "boom")))) 0
  = mkCall [VPromise (Rejected 2 (VError "Error" "boom"))]
           (Fulfilled 3 (VObject [("data", VNull);
                                  ("error", VError "Error" "boom")])).
Proof. reflexivity. Qed.

Example scenario_C :
  run_async (tryCatchFn (fun _ => Abrupt (VError "RangeError" "bad"))) 0
  = mkCall [] (Fulfilled 0 (VObject [("data", VNull);
                                     ("error", VError "RangeError" "bad")])).
Proof. reflexivity. Qed.

Example scenario_D :
  run_async (tryCatchFn (fun _ => Normal (VNumber 7))) 0
  = mkCall [VNumber 7]
           (Fulfilled 1 (VObject [("data", VNumber 7); ("error", VNull)])).
Proof. reflexivity. Qed.

(** ** What a call returns *)

Section Characterisation.

Variable now : nat.

(** The call of [tryCatch] awaits its argument once and converts the
    completion of that [await]. *)
Lemma run_tryCatch (promise : value) :
  run_async (tryCatch promise) now =
  match awaited now promise with
  | Some (turn, Normal v) => mkCall [promise] (Fulfilled turn (Success v))
  | Some (turn, Abrupt e) => mkCall [promise] (Fulfilled turn (Failure e))
  | None => mkCall [promise] Forever
  end.
Proof.
  unfold tryCatch; simpl.
  destruct (awaited now promise) as [[turn [v | e]] | ]; reflexivity.
Qed.

(** A thunk that returns hands its value to the same [await]. *)
Lemma run_tryCatchFn_returns (fn : thunk) (r : value) :
  fn tt = Normal r ->
  run_async (tryCatchFn fn) now = run_async (tryCatch r) now.
Proof.
  intros Hfn. unfold tryCatchFn, tryCatch, invoke. rewrite Hfn. reflexivity.
Qed.

(** A thunk that throws never reaches the [await]. *)
Lemma run_tryCatchFn_throws (fn : thunk) (e : value) :
  fn tt = Abrupt e ->
  run_async (tryCatchFn fn) now = mkCall [] (Fulfilled now (Failure e)).
Proof.
  intros Hfn. unfold tryCatchFn, invoke. rewrite Hfn. reflexivity.
Qed.

End Characterisation.

Lemma Result_slots (r : value) :
  Result r -> both_populated r = false.
Proof.
  intros [data | error]; unfold both_populated, populated; simpl.
  - apply andb_false_r.
  - reflexivity.
Qed.

Lemma Success_exactly_one (v : value) :
  v <> VNull -> exactly_one_populated (Success v) = true.
Proof.
  intros Hv. unfold exactly_one_populated, populated; simpl.
  destruct v; try reflexivity. contradiction.
Qed.

Lemma Failure_exactly_one (e : value) :
  e <> VNull -> exactly_one_populated (Failure e) = true.
Proof.
  intros He. unfold exactly_one_populated, populated; simpl.
  destruct e; try reflexivity. contradiction.
Qed.

Lemma awaited_plain (now : nat) (v : value) :
  is_promise v = false -> awaited now v = Some (S now, Normal v).
Proof. destruct v; simpl; intros H; try reflexivity; discriminate. Qed.

Lemma awaited_never (now : nat) (operand : value) :
  awaited now operand = None -> operand = VPromise Forever.
Proof.
  destruct operand; simpl; try discriminate.
  destruct p; simpl; try discriminate. reflexivity.
Qed.

(** * Properties of the wrapper *)

(** ** Never throws *)

(** C1, as stated, fails where the awaited promise never settles: the
    promise returned by the wrapper then never settles either, so it does not
    "always settle successfully". *)
Lemma pending_input_pending_output :
  returned (run_async (tryCatch (VPromise Forever)) 0) = Forever
  /\ returned (run_async (tryCatchFn (fun _ => Normal (VPromise Forever))) 0)
     = Forever
  /\ settled Forever = false.
Proof. repeat split. Qed.

(** C1, amended.  For every argument and every thunk (one that throws, one
    that returns a promise that rejects, one that returns a plain value, ...)
    the promise returned by [tryCatch] and by [tryCatchFn] is never rejected:
    it is fulfilled with a [Result], the one exception being an awaited
    promise that never settles, where the returned promise stays pending. *)
Theorem wrapper_never_rejects (now : nat) :
  (forall promise : value,
     match returned (run_async (tryCatch promise) now) with
     | Fulfilled _ r => Result r
     | Rejected _ _ => False
     | Forever => promise = VPromise Forever
     end) /\
  (forall fn : thunk,
     match returned (run_async (tryCatchFn fn) now) with
     | Fulfilled _ r => Result r
     | Rejected _ _ => False
     | Forever => fn tt = Normal (VPromise Forever)
     end).
Proof.
  assert (Hp : forall promise : value,
     match returned (run_async (tryCatch promise) now) with
     | Fulfilled _ r => Result r
     | Rejected _ _ => False
     | Forever => promise = VPromise Forever
     end).
  { intros promise. rewrite run_tryCatch.
    destruct (awaited now promise) as [[turn [v | e]] | ] eqn:Ha; simpl.
    - constructor.
    - constructor.
    - now apply awaited_never in Ha. }
  split; [exact Hp | ].
  intros fn. destruct (fn tt) as [r | e] eqn:Hfn.
  - rewrite (run_tryCatchFn_returns now fn r Hfn).
    specialize (Hp r).
    destruct (returned (run_async (tryCatch r) now)); try assumption.
    now subst r.
  - rewrite (run_tryCatchFn_throws now fn e Hfn). simpl. constructor.
Qed.

(** ** Mutual exclusivity *)

(** C2, as stated, fails: a promise fulfilled with [null] is wrapped into a
    value whose two slots both hold [null]. *)
Lemma exclusivity_fails_on_null :
  returned (run_async (tryCatch (VPromise (Fulfilled 0 VNull))) 0)
  = Fulfilled 1 (VObject [("data", VNull); ("error", VNull)])
  /\ exactly_one_populated (VObject [("data", VNull); ("error", VNull)]) = false
  /\ both_absent (VObject [("data", VNull); ("error", VNull)]) = true.
Proof. repeat split. Qed.

(** C2, amended.  No settlement of [tryCatch] or [tryCatchFn] has both slots
    populated; and whenever the wrapped operation settles with a value or a
    failure other than [null], exactly one of the two slots is populated. *)
Theorem exclusivity_unless_null (now : nat) :
  (forall promise turn r,
     returned (run_async (tryCatch promise) now) = Fulfilled turn r ->
     both_populated r = false) /\
  (forall fn turn r,
     returned (run_async (tryCatchFn fn) now) = Fulfilled turn r ->
     both_populated r = false) /\
  (forall promise turn c,
     awaited now promise = Some (turn, c) -> payload c <> VNull ->
     exists r, returned (run_async (tryCatch promise) now) = Fulfilled turn r
               /\ exactly_one_populated r = true) /\
  (forall fn v turn c,
     fn tt = Normal v ->
     awaited now v = Some (turn, c) -> payload c <> VNull ->
     exists r, returned (run_async (tryCatchFn fn) now) = Fulfilled turn r
               /\ exactly_one_populated r = true) /\
  (forall fn e,
     fn tt = Abrupt e -> e <> VNull ->
     exists r, returned (run_async (tryCatchFn fn) now) = Fulfilled now r
               /\ exactly_one_populated r = true).
Proof.
  assert (Hone : forall promise turn c,
     awaited now promise = Some (turn, c) -> payload c <> VNull ->
     exists r, returned (run_async (tryCatch promise) now) = Fulfilled turn r
               /\ exactly_one_populated r = true).
  { intros promise turn c Ha Hc. rewrite run_tryCatch, Ha.
    destruct c as [v | e]; simpl in *.
    - exists (Success v). split; [reflexivity | now apply Success_exactly_one].
    - exists (Failure e). split; [reflexivity | now apply Failure_exactly_one]. }
  repeat split.
  - intros promise turn r Hr. apply Result_slots.
    rewrite run_tryCatch in Hr.
    destruct (awaited now promise) as [[t [v | e]] | ]; simpl in Hr;
      inversion Hr; constructor.
  - intros fn turn r Hr. apply Result_slots.
    destruct (fn tt) as [v | e] eqn:Hfn.
    + rewrite (run_tryCatchFn_returns now fn v Hfn), run_tryCatch in Hr.
      destruct (awaited now v) as [[t [x | e]] | ]; simpl in Hr;
        inversion Hr; constructor.
    + rewrite (run_tryCatchFn_throws now fn e Hfn) in Hr.
      inversion Hr; constructor.
  - exact Hone.
  - intros fn v turn c Hfn Ha Hc.
    rewrite (run_tryCatchFn_returns now fn v Hfn). now apply (Hone v turn c).
  - intros fn e Hfn He. rewrite (run_tryCatchFn_throws now fn e Hfn).
    exists (Failure e). split; [reflexivity | now apply Failure_exactly_one].
Qed.

Lemma exclusivity_unless_null_witness :
  (exists r,
     returned (run_async (tryCatch (VPromise (Fulfilled 2 (VNumber 7)))) 0)
     = Fulfilled 3 r
     /\ exactly_one_populated r = true) /\
  (exists r,
     returned (run_async (tryCatchFn (fun _ => Abrupt (VString "boom"))) 0)
     = Fulfilled 0 r
     /\ exactly_one_populated r = true).
Proof.
  split.
  - apply (proj1 (proj2 (proj2 (exclusivity_unless_null 0)))
             (VPromise (Fulfilled 2 (VNumber 7))) 3 (Normal (VNumber 7))).
    + reflexivity.
    + discriminate.
  - apply (proj2 (proj2 (proj2 (proj2 (exclusivity_unless_null 0))))
             (fun _ => Abrupt (VString "boom")) (VString "boom")).
    + reflexivity.
    + discriminate.
Defined.

(** ** Round trips *)

Section RoundTrips.

Variable now : nat.

(** C3. When the operation settles successfully with [v], the wrapper
    returns [{ data: v, error: null }] with [v] untouched: for [tryCatch]
    given the promise, and for [tryCatchFn] given a thunk that returns that
    promise or returns [v] itself. *)
Theorem success_round_trip (v : value) :
  (forall turn,
     returned (run_async (tryCatch (VPromise (Fulfilled turn v))) now)
     = Fulfilled (S (Nat.max now turn))
                 (VObject [("data", v); ("error", VNull)])) /\
  (forall (fn : thunk) turn,
     fn tt = Normal (VPromise (Fulfilled turn v)) ->
     returned (run_async (tryCatchFn fn) now)
     = Fulfilled (S (Nat.max now turn))
                 (VObject [("data", v); ("error", VNull)])) /\
  (forall fn : thunk,
     fn tt = Normal v -> is_promise v = false ->
     returned (run_async (tryCatchFn fn) now)
     = Fulfilled (S now) (VObject [("data", v); ("error", VNull)])).
Proof.
  repeat split.
  - intros fn turn Hfn.
    now rewrite (run_tryCatchFn_returns now fn _ Hfn).
  - intros fn Hfn Hv.
    rewrite (run_tryCatchFn_returns now fn _ Hfn), run_tryCatch.
    now rewrite (awaited_plain now v Hv).
Qed.

(** C4. When the operation fails with [e], thrown by the thunk or
    delivered by a rejection, the wrapper returns
    [{ data: null, error: e }] with [e] untouched. *)
Theorem failure_round_trip (e : value) :
  (forall turn,
     returned (run_async (tryCatch (VPromise (Rejected turn e))) now)
     = Fulfilled (S (Nat.max now turn))
                 (VObject [("data", VNull); ("error", e)])) /\
  (forall (fn : thunk) turn,
     fn tt = Normal (VPromise (Rejected turn e)) ->
     returned (run_async (tryCatchFn fn) now)
     = Fulfilled (S (Nat.max now turn))
                 (VObject [("data", VNull); ("error", e)])) /\
  (forall fn : thunk,
     fn tt = Abrupt e ->
     returned (run_async (tryCatchFn fn) now)
     = Fulfilled now (VObject [("data", VNull); ("error", e)])).
Proof.
  repeat split.
  - intros fn turn Hfn.
    now rewrite (run_tryCatchFn_returns now fn _ Hfn).
  - intros fn Hfn.
    now rewrite (run_tryCatchFn_throws now fn e Hfn).
Qed.

(** C5. A thunk that throws synchronously makes [tryCatchFn] return at
    once: nothing is awaited, and the returned promise is already fulfilled
    with the failure holding the thrown value, so nothing escapes. *)
Theorem sync_throw_captured (fn : thunk) (e : value) :
  fn tt = Abrupt e ->
  run_async (tryCatchFn fn) now
  = mkCall [] (Fulfilled now (VObject [("data", VNull); ("error", e)])).
Proof. apply run_tryCatchFn_throws. Qed.

(** C7. A failure value that is not an error object (a string, a number)
    lands in the error slot as it is: nothing inspects or normalises it. *)
Theorem non_error_failure_passes_through (e : value) :
  is_error_object e = false ->
  (forall turn,
     exists t r,
       returned (run_async (tryCatch (VPromise (Rejected turn e))) now)
       = Fulfilled t r /\ get r "error" = e /\ get r "data" = VNull) /\
  (forall (fn : thunk) turn,
     fn tt = Normal (VPromise (Rejected turn e)) ->
     exists t r,
       returned (run_async (tryCatchFn fn) now) = Fulfilled t r
       /\ get r "error" = e /\ get r "data" = VNull) /\
  (forall fn : thunk,
     fn tt = Abrupt e ->
     exists t r,
       returned (run_async (tryCatchFn fn) now) = Fulfilled t r
       /\ get r "error" = e /\ get r "data" = VNull).
Proof.
  intros _. repeat split.
  - intros turn. now eexists _, _.
  - intros fn turn Hfn. rewrite (run_tryCatchFn_returns now fn _ Hfn).
    now eexists _, _.
  - intros fn Hfn. rewrite (run_tryCatchFn_throws now fn e Hfn).
    now eexists _, _.
Qed.

End RoundTrips.

Lemma success_round_trip_witness :
  returned (run_async (tryCatchFn (fun _ => Normal (VString "ok"))) 0)
  = Fulfilled 1 (VObject [("data", VString "ok"); ("error", VNull)])
  /\
  returned (run_async
    (tryCatchFn (fun _ => Normal (VPromise (Fulfilled 4 (VString "ok"))))) 2)
  = Fulfilled 5 (VObject [("data", VString "ok"); ("error", VNull)]).
Proof.
  split.
  - apply (proj2 (proj2 (success_round_trip 0 (VString "ok")))
             (fun _ => Normal (VString "ok"))); reflexivity.
  - apply (proj1 (proj2 (success_round_trip 2 (VString "ok")))
             (fun _ => Normal (VPromise (Fulfilled 4 (VString "ok")))) 4).
    reflexivity.
Defined.

Lemma failure_round_trip_witness :
  returned (run_async
    (tryCatchFn (fun _ => Abrupt (VError "RangeError" "bad"))) 0)
  = Fulfilled 0 (VObject [("data", VNull);
                          ("error", VError "RangeError" "bad")])
  /\
  returned (run_async
    (tryCatchFn (fun _ => Normal (VPromise (Rejected 3 (VError "Error" "boom")))))
    1)
  = Fulfilled 4 (VObject [("data", VNull); ("error", VError "Error" "boom")]).
Proof.
  split.
  - apply (proj2 (proj2 (failure_round_trip 0 (VError "RangeError" "bad")))
             (fun _ => Abrupt (VError "RangeError" "bad"))); reflexivity.
  - apply (proj1 (proj2 (failure_round_trip 1 (VError "Error" "boom")))
             (fun _ => Normal (VPromise (Rejected 3 (VError "Error" "boom")))) 3).
    reflexivity.
Defined.

Lemma sync_throw_captured_witness :
  run_async (tryCatchFn (fun _ => Abrupt (VError "RangeError" "bad"))) 0
  = mkCall [] (Fulfilled 0 (VObject [("data", VNull);
                                     ("error", VError "RangeError" "bad")])).
Proof.
  apply (sync_throw_captured 0 (fun _ => Abrupt (VError "RangeError" "bad"))).
  reflexivity.
Defined.

Lemma non_error_failure_passes_through_witness :
  is_error_object (VString "nope") = false /\
  (exists t r,
     returned (run_async (tryCatch (VPromise (Rejected 0 (VString "nope")))) 0)
     = Fulfilled t r
     /\ get r "error" = VString "nope" /\ get r "data" = VNull) /\
  (exists t r,
     returned (run_async (tryCatchFn (fun _ => Abrupt (VNumber 404))) 0)
     = Fulfilled t r
     /\ get r "error" = VNumber 404 /\ get r "data" = VNull).
Proof.
  split; [reflexivity | split].
  - apply (proj1 (non_error_failure_passes_through 0 (VString "nope")
                    eq_refl) 0).
  - apply (proj2 (proj2 (non_error_failure_passes_through 0 (VNumber 404)
                           eq_refl)) (fun _ => Abrupt (VNumber 404))).
    reflexivity.
Defined.

(** ** The two entry points compared *)

(** C6. Synchronous and asynchronous success cannot be told apart in the
    output of [tryCatchFn]: for every value [v], a thunk returning [v]
    itself and a thunk returning a promise that resolves to [v] at any later
    turn both settle with [{ data: v, error: null }].  With [v] the number
    [42], or [7], these are the two scenarios of the specification. *)
Theorem sync_async_uniform (plain later : thunk) (v : value) (now turn : nat) :
  is_promise v = false ->
  plain tt = Normal v ->
  later tt = Normal (VPromise (Fulfilled turn v)) ->
  returned (run_async (tryCatchFn plain) now)
  = Fulfilled (S now) (VObject [("data", v); ("error", VNull)])
  /\
  returned (run_async (tryCatchFn later) now)
  = Fulfilled (S (Nat.max now turn))
              (VObject [("data", v); ("error", VNull)]).
Proof.
  intros Hv Hplain Hlater. split.
  - rewrite (run_tryCatchFn_returns now plain v Hplain), run_tryCatch.
    now rewrite (awaited_plain now v Hv).
  - now rewrite (run_tryCatchFn_returns now later _ Hlater).
Qed.

Lemma sync_async_uniform_witness :
  (returned (run_async (tryCatchFn (fun _ => Normal (VNumber 42))) 0)
   = Fulfilled 1 (VObject [("data", VNumber 42); ("error", VNull)])
   /\
   returned (run_async
     (tryCatchFn (fun _ => Normal (VPromise (Fulfilled 5 (VNumber 42))))) 0)
   = Fulfilled 6 (VObject [("data", VNumber 42); ("error", VNull)]))
  /\
  (returned (run_async (tryCatchFn (fun _ => Normal (VNumber 7))) 2)
   = Fulfilled 3 (VObject [("data", VNumber 7); ("error", VNull)])
   /\
   returned (run_async
     (tryCatchFn (fun _ => Normal (VPromise (Fulfilled 1 (VNumber 7))))) 2)
   = Fulfilled 3 (VObject [("data", VNumber 7); ("error", VNull)])).
Proof.
  split.
  - apply (sync_async_uniform
             (fun _ => Normal (VNumber 42))
             (fun _ => Normal (VPromise (Fulfilled 5 (VNumber 42))))
             (VNumber 42) 0 5); reflexivity.
  - apply (sync_async_uniform
             (fun _ => Normal (VNumber 7))
             (fun _ => Normal (VPromise (Fulfilled 1 (VNumber 7))))
             (VNumber 7) 2 1); reflexivity.
Defined.

(** C9. For every promise [p], [tryCatchFn] applied to the thunk [() => p]
    and [tryCatch] applied to [p] agree: once the thunk has returned, the
    two bodies are the same, so the same operand is awaited and the same
    promise is returned, whatever the fate of [p]. *)
Theorem tryCatchFn_of_constant_thunk (p : promise) (now : nat) :
  tryCatchFn (fun _ => Normal (VPromise p)) = tryCatch (VPromise p) /\
  run_async (tryCatchFn (fun _ => Normal (VPromise p))) now
  = run_async (tryCatch (VPromise p)) now /\
  returned (run_async (tryCatchFn (fun _ => Normal (VPromise p))) now)
  = match p with
    | Fulfilled turn v => Fulfilled (S (Nat.max now turn)) (Success v)
    | Rejected turn e => Fulfilled (S (Nat.max now turn)) (Failure e)
    | Forever => Forever
    end.
Proof.
  split; [reflexivity | split].
  - now apply run_tryCatchFn_returns.
  - rewrite (run_tryCatchFn_returns now _ (VPromise p) eq_refl), run_tryCatch.
    destruct p; reflexivity.
Qed.

(** ** No timeout *)

(** C8. The promise returned by [tryCatch] settles exactly when its argument
    does, and not before it: for an argument that never settles the returned
    promise never settles either. *)
Theorem tryCatch_settles_iff (p : promise) (now : nat) :
  let out := returned (run_async (tryCatch (VPromise p)) now) in
  (settled out = true <-> settled p = true) /\
  (p = Forever -> out = Forever) /\
  (forall t_in t_out,
     settle_turn p = Some t_in -> settle_turn out = Some t_out ->
     t_in < t_out).
Proof.
  destruct p as [turn v | turn e | ]; simpl; repeat split;
    try tauto; try discriminate;
    intros t_in t_out Hin Hout; inversion Hin; inversion Hout; lia.
Qed.

Lemma tryCatch_settles_iff_witness :
  returned (run_async (tryCatch (VPromise Forever)) 0) = Forever
  /\ settled (returned
        (run_async (tryCatch (VPromise (Fulfilled 7 (VString "ok")))) 3))
     = true.
Proof.
  split.
  - apply (proj1 (proj2 (tryCatch_settles_iff Forever 0))). reflexivity.
  - apply (proj2 (proj1 (tryCatch_settles_iff (Fulfilled 7 (VString "ok")) 3))).
    reflexivity.
Defined.

(** ** Null settlements *)

(** C10. A promise fulfilled with [null] and a promise rejected with [null]
    (likewise a thunk returning [null] and a thunk throwing [null]) are
    wrapped into the same value [{ data: null, error: null }]: both slots
    hold the absent marker, the test [error === null] succeeds on the
    failure, and nothing computed from the result tells the two apart. *)
Theorem null_settlement_indistinguishable (now : nat) :
  let both_null := VObject [("data", VNull); ("error", VNull)] in
  returned (run_async (tryCatch (VPromise (Fulfilled 0 VNull))) now)
  = Fulfilled (S now) both_null /\
  returned (run_async (tryCatch (VPromise (Rejected 0 VNull))) now)
  = Fulfilled (S now) both_null /\
  returned (run_async (tryCatchFn (fun _ => Normal VNull)) now)
  = Fulfilled (S now) both_null /\
  returned (run_async (tryCatchFn (fun _ => Abrupt VNull)) now)
  = Fulfilled now both_null /\
  both_absent both_null = true /\
  is_null (get both_null "error") = true /\
  (forall (A : Type) (classify : promise -> A),
     classify
       (returned (run_async (tryCatch (VPromise (Rejected 0 VNull))) now))
     = classify
       (returned (run_async (tryCatch (VPromise (Fulfilled 0 VNull))) now))).
Proof.
  simpl. rewrite Nat.max_0_r. repeat split.
Qed.


(** * Further properties of the wrapper *)

(** ** Primitive arguments *)

(** X1. [tryCatch] given a primitive value ([undefined], [null], a boolean,
    a number or a string), which [await] accepts, awaits that value once and
    returns a promise fulfilled at the next turn with the success holding the
    value itself: a primitive argument never produces a failure. *)
Theorem tryCatch_primitive_argument (v : value) (now : nat) :
  is_primitive v = true ->
  run_async (tryCatch v) now
  = mkCall [v] (Fulfilled (S now) (VObject [("data", v); ("error", VNull)])).
Proof.
  intros Hv. rewrite run_tryCatch.
  destruct v; simpl in Hv; try discriminate; reflexivity.
Qed.

Lemma tryCatch_primitive_argument_witness :
  run_async (tryCatch (VNumber 42)) 5
  = mkCall [VNumber 42]
           (Fulfilled 6 (VObject [("data", VNumber 42); ("error", VNull)]))
  /\
  run_async (tryCatch VUndefined) 0
  = mkCall [VUndefined]
           (Fulfilled 1 (VObject [("data", VUndefined); ("error", VNull)])).
Proof.
  split.
  - apply (tryCatch_primitive_argument (VNumber 42) 5). reflexivity.
  - apply (tryCatch_primitive_argument VUndefined 0). reflexivity.
Defined.

(** ** When the returned promise settles *)

(** An [await] always gives up the current turn. *)
Lemma awaited_later (now t : nat) (operand : value) (c : completion) :
  awaited now operand = Some (t, c) -> now < t.
Proof.
  destruct operand as [ | | b | n | s | name message | props | p]; simpl;
    try (intros H; inversion H; lia).
  destruct p as [turn v | turn e | ]; simpl; intros H; inversion H; lia.
Qed.

Lemma tryCatch_settle_turn (promise : value) (now : nat) :
  settle_turn (returned (run_async (tryCatch promise) now))
  = option_map fst (awaited now promise).
Proof.
  rewrite run_tryCatch.
  destruct (awaited now promise) as [[turn [v | e]] | ]; reflexivity.
Qed.

(** X2. The promise returned by [tryCatch] is never settled in the turn of
    the call: whatever the argument, already settled or not a promise at
    all, the result arrives in a later turn. *)
Theorem tryCatch_never_immediate (promise : value) (now t : nat) :
  settle_turn (returned (run_async (tryCatch promise) now)) = Some t ->
  now < t.
Proof.
  rewrite tryCatch_settle_turn.
  destruct (awaited now promise) as [[turn c] | ] eqn:Ha; simpl;
    intros H; inversion H; subst.
  now apply (awaited_later now t promise c).
Qed.

Lemma tryCatch_never_immediate_witness :
  settle_turn
    (returned (run_async (tryCatch (VPromise (Fulfilled 0 (VString "ok")))) 0))
  = Some 1 /\ 0 < 1.
Proof.
  split; [reflexivity | ].
  apply (tryCatch_never_immediate (VPromise (Fulfilled 0 (VString "ok"))) 0 1).
  reflexivity.
Defined.

(** X3. The promise returned by [tryCatchFn] is settled in the turn of the
    call exactly when the thunk throws: a thunk that returns, even a plain
    value, has its result delivered in a later turn. *)
Theorem tryCatchFn_immediate_iff_throws (fn : thunk) (now : nat) :
  settle_turn (returned (run_async (tryCatchFn fn) now)) = Some now
  <-> exists e, fn tt = Abrupt e.
Proof.
  destruct (fn tt) as [r | e] eqn:Hfn.
  - rewrite (run_tryCatchFn_returns now fn r Hfn), tryCatch_settle_turn.
    split.
    + destruct (awaited now r) as [[turn c] | ] eqn:Ha; simpl;
        intros H; inversion H; subst.
      apply awaited_later in Ha. lia.
    + intros [e He]. discriminate.
  - rewrite (run_tryCatchFn_throws now fn e Hfn). simpl. split; eauto.
Qed.

(** X4. The promise returned by [tryCatchFn] stays pending in exactly one
    case: the thunk returns a promise that never settles.  A thunk that
    throws, returns a plain value, or returns a promise that settles either
    way always gets its result. *)
Theorem tryCatchFn_pending_iff (fn : thunk) (now : nat) :
  settled (returned (run_async (tryCatchFn fn) now)) = false
  <-> fn tt = Normal (VPromise Forever).
Proof.
  destruct (fn tt) as [r | e] eqn:Hfn.
  - rewrite (run_tryCatchFn_returns now fn r Hfn), run_tryCatch. split.
    + destruct (awaited now r) as [[turn [v | e]] | ] eqn:Ha; simpl;
        try discriminate.
      intros _. now rewrite (awaited_never now r Ha).
    + intros H. inversion H. reflexivity.
  - rewrite (run_tryCatchFn_throws now fn e Hfn). simpl.
    split; discriminate.
Qed.

(** ** Nesting *)

(** X5. Wrapping a wrapped operation never yields a failure: [tryCatch]
    applied to the promise returned by [tryCatch] (or by [tryCatchFn]) is
    fulfilled with a success whose data slot holds the inner [Result], and
    stays pending only if the innermost awaited promise never settles. *)
Theorem tryCatch_nested (now : nat) :
  (forall promise : value,
     let inner := returned (run_async (tryCatch promise) now) in
     match returned (run_async (tryCatch (VPromise inner)) now) with
     | Fulfilled _ r =>
         exists t result, inner = Fulfilled t result /\ Result result
                          /\ r = VObject [("data", result); ("error", VNull)]
     | Rejected _ _ => False
     | Forever => promise = VPromise Forever
     end) /\
  (forall fn : thunk,
     let inner := returned (run_async (tryCatchFn fn) now) in
     match returned (run_async (tryCatch (VPromise inner)) now) with
     | Fulfilled _ r =>
         exists t result, inner = Fulfilled t result /\ Result result
                          /\ r = VObject [("data", result); ("error", VNull)]
     | Rejected _ _ => False
     | Forever => fn tt = Normal (VPromise Forever)
     end).
Proof.
  assert (Hp : forall promise : value,
     let inner := returned (run_async (tryCatch promise) now) in
     match returned (run_async (tryCatch (VPromise inner)) now) with
     | Fulfilled _ r =>
         exists t result, inner = Fulfilled t result /\ Result result
                          /\ r = VObject [("data", result); ("error", VNull)]
     | Rejected _ _ => False
     | Forever => promise = VPromise Forever
     end).
  { intros promise. cbv zeta. rewrite (run_tryCatch now promise).
    destruct (awaited now promise) as [[turn [v | e]] | ] eqn:Ha; simpl.
    - exists turn, (Success v). repeat split. constructor.
    - exists turn, (Failure e). repeat split. constructor.
    - now apply awaited_never in Ha. }
  split; [exact Hp | ].
  intros fn. cbv zeta. destruct (fn tt) as [r | e] eqn:Hfn.
  - rewrite (run_tryCatchFn_returns now fn r Hfn).
    specialize (Hp r). cbv zeta in Hp.
    destruct (returned (run_async (tryCatch (VPromise
                (returned (run_async (tryCatch r) now)))) now));
      try assumption.
    now subst r.
  - rewrite (run_tryCatchFn_throws now fn e Hfn). simpl.
    exists now, (Failure e). repeat split. constructor.
Qed.

(** ** What the Result retains *)

(** X6. The Result determines how the operation settled, except for
    [null]: if two arguments of [tryCatch] are wrapped into the same value,
    then they completed the same way with the same value, or both completed
    with [null] (one possibly as a success, the other as a failure). *)
Theorem tryCatch_result_determines_completion
  (now : nat) (p q : value) (tp tq : nat) (cp cq : completion) (r : value) :
  awaited now p = Some (tp, cp) ->
  awaited now q = Some (tq, cq) ->
  returned (run_async (tryCatch p) now) = Fulfilled tp r ->
  returned (run_async (tryCatch q) now) = Fulfilled tq r ->
  cp = cq \/ (payload cp = VNull /\ payload cq = VNull).
Proof.
  intros Hp Hq. rewrite !run_tryCatch, Hp, Hq.
  destruct cp as [vp | ep], cq as [vq | eq]; simpl;
    intros H1 H2; inversion H1; subst r; inversion H2; subst; auto.
Qed.

Lemma tryCatch_result_determines_completion_witness :
  Abrupt (VString "boom") = Abrupt (VString "boom")
  \/ (payload (Abrupt (VString "boom")) = VNull
      /\ payload (Abrupt (VString "boom")) = VNull).
Proof.
  apply (tryCatch_result_determines_completion 0
           (VPromise (Rejected 0 (VString "boom")))
           (VPromise (Rejected 3 (VString "boom")))
           1 4 (Abrupt (VString "boom")) (Abrupt (VString "boom"))
           (VObject [("data", VNull); ("error", VString "boom")]));
    reflexivity.
Defined.
